(** * Burn severity from differenced NBR: a model of [wildfire_dnbr.py]

    The script is one top-to-bottom procedure.  It builds raster
    expressions through the Earth Engine client ([ee]), asks the service
    for three scalars, draws a map through [geemap] and writes two HTML
    files.  The development follows that order:

    - [Num]: the comparisons the classification uses;
    - [EE]: the part of the client API the script calls, per pixel;
    - [Config], [Indices]: the constants and the raster expressions;
    - [Html]: the dashboard template;
    - [Script]: the procedure itself, as a trace of prints, service
      requests and file writes with an exit status.

    Pixel values are rationals.  Every binary64 value is a rational and
    comparing two of them is exact, so the classification is modelled
    without loss by exact comparisons; arithmetic on them is exact here,
    rounding is looked at separately in [Binary64]. *)

From Stdlib Require Import String Ascii List ZArith QArith Bool Lia Lqa DecimalString Floats.
Import ListNotations.

Open Scope Q_scope.

(** ** Numbers *)

Module Num.

(** Strict comparison of two rationals, as a boolean. *)
Definition ltb (x y : Q) : bool :=
  (Qnum x * QDen y <? Qnum y * QDen x)%Z.

Definition gtb (x y : Q) : bool := ltb y x.

(** A pixel counts as true when it is not zero. *)
Definition nonzero (x : Q) : bool := negb (Qnum x =? 0)%Z.

(** Comparisons produce 1 and 0. *)
Definition of_bool (b : bool) : Q := if b then 1 else 0.

End Num.

(** ** The Earth Engine client calls the script makes

    An image is a list of named bands; a band gives each location either
    a number or nothing (a masked pixel).  Binary operations pair the
    bands of their operands in order and keep the names of the left one,
    which is what the client documents for operands with equally many
    bands; the script only ever combines single-band images.  A number
    passed where an image is expected stands for a constant image. *)

Module EE.

Definition Pixel : Type := (Q * Q)%type.          (* longitude, latitude *)
Definition Raster : Type := Pixel -> option Q.
Definition Image : Type := list (string * Raster).

Definition constant (c : Q) : Image := [("constant"%string, fun _ => Some c)].

(** The value of band [name] at [p]; [None] when masked or absent. *)
Fixpoint sample (img : Image) (name : string) (p : Pixel) : option Q :=
  match img with
  | [] => None
  | (n, r) :: rest => if String.eqb n name then r p else sample rest name p
  end.

(** The value of the first band at [p]. *)
Definition first_band (img : Image) (p : Pixel) : option Q :=
  match img with
  | [] => None
  | (_, r) :: _ => r p
  end.

Definition bandNames (img : Image) : list string := map fst img.

Definition select (name : string) (img : Image) : Image :=
  filter (fun b => String.eqb (fst b) name) img.

Definition rename (name : string) (img : Image) : Image :=
  combine [name] (map snd img).

Definition lift2 (f : Q -> Q -> Q) (a b : option Q) : option Q :=
  match a, b with
  | Some x, Some y => Some (f x y)
  | _, _ => None
  end.

Definition binop (f : Q -> Q -> Q) (a b : Image) : Image :=
  map (fun ab => (fst (fst ab), fun p => lift2 f (snd (fst ab) p) (snd (snd ab) p)))
      (combine a b).

Definition add := binop Qplus.
Definition subtract := binop Qminus.
Definition multiply := binop Qmult.
(** [divide] gives 0 on a zero divisor, and so does [Qdiv]. *)
Definition divide := binop Qdiv.

Definition lt (a : Image) (c : Q) : Image :=
  binop (fun x y => Num.of_bool (Num.ltb x y)) a (constant c).
Definition gt (a : Image) (c : Q) : Image :=
  binop (fun x y => Num.of_bool (Num.gtb x y)) a (constant c).
Definition And (a b : Image) : Image :=
  binop (fun x y => Num.of_bool (Num.nonzero x && Num.nonzero y)) a b.

(** [input.where(test, value)]: where [test] is not zero the pixel of
    [value] replaces the pixel of [input]; masked input stays masked. *)
Definition where_px (i t v : option Q) : option Q :=
  match i with
  | None => None
  | Some x =>
      match t, v with
      | Some tv, Some vv => if Num.nonzero tv then Some vv else Some x
      | _, _ => Some x
      end
  end.

Definition where_ (input test : Image) (value : Q) : Image :=
  map (fun it => (fst (fst it),
                  fun p => where_px (snd (fst it) p) (snd (snd it) p) (Some value)))
      (combine input test).

(** *** Geometries and image collections *)

Record Geometry := { xMin : Q; yMin : Q; xMax : Q; yMax : Q }.

(** [ee.Geometry.Rectangle(coords)] on a flat list wants exactly the four
    numbers xMin, yMin, xMax, yMax; anything else raises. *)
Definition Rectangle (coords : list Q) : option Geometry :=
  match coords with
  | [a; b; c; d] => Some {| xMin := a; yMin := b; xMax := c; yMax := d |}
  | _ => None
  end.

Definition contains (g : Geometry) (p : Pixel) : bool :=
  Qle_bool (xMin g) (fst p) && Qle_bool (fst p) (xMax g) &&
  Qle_bool (yMin g) (snd p) && Qle_bool (snd p) (yMax g).

Definition intersects (a b : Geometry) : bool :=
  Qle_bool (xMin a) (xMax b) && Qle_bool (xMin b) (xMax a) &&
  Qle_bool (yMin a) (yMax b) && Qle_bool (yMin b) (yMax a).

(** One catalogue entry: acquisition time, numeric properties, footprint
    and the bands. *)
Record Scene := {
  time_start : Z;
  property : string -> option Q;
  footprint : Geometry;
  bands : Image
}.

Definition ImageCollection : Type := list Scene.

Definition has_band (name : string) (s : Scene) : bool :=
  existsb (String.eqb name) (bandNames (bands s)).

(** [filterDate(start, end)]: start inclusive, end exclusive. *)
Definition filterDate (start stop : Z) (c : ImageCollection) : ImageCollection :=
  filter (fun s => (start <=? time_start s)%Z && (time_start s <? stop)%Z) c.

Definition filterBounds (g : Geometry) (c : ImageCollection) : ImageCollection :=
  filter (fun s => intersects (footprint s) g) c.

(** [ee.Filter.lt(name, value)]. *)
Definition Filter_lt (name : string) (value : Q) (s : Scene) : bool :=
  match property s name with
  | Some x => Num.ltb x value
  | None => false
  end.

Definition filter_ (f : Scene -> bool) (c : ImageCollection) : ImageCollection :=
  filter f c.

Definition size (c : ImageCollection) : Z := Z.of_nat (length c).

(** The unmasked values of band [name] at [p] across the collection. *)
Definition band_values (c : ImageCollection) (name : string) (p : Pixel) : list Q :=
  flat_map (fun s => match sample (bands s) name p with
                     | Some v => [v]
                     | None => []
                     end) c.

(** [collection.median()]: per band and pixel, the reducer over the
    unmasked values; masked where there is none.  The reducer belongs to
    the service and is passed in. *)
Definition median (reducer : list Q -> Q) (c : ImageCollection) : Image :=
  match c with
  | [] => []
  | s :: _ =>
      map (fun b => (fst b,
                     fun p => match band_values c (fst b) p with
                              | [] => None
                              | vs => Some (reducer vs)
                              end))
          (bands s)
  end.

Definition clip (g : Geometry) (img : Image) : Image :=
  map (fun b => (fst b, fun p => if contains g p then snd b p else None)) img.

(** *** The service seen from the script

    What the remote side decides: whether [ee.Initialize] goes through,
    what the catalogue holds, how it reads a date string, its median
    reducer, the area of a geometry, and whether a blocking request
    ([getInfo], tile requests) returns or raises. *)

Inductive Request :=
| GetArea
| GetPreCount
| GetPostCount
| GetMapId (layer : string).

Record Service := {
  initialize : string -> bool;
  catalog : string -> ImageCollection;
  date_millis : string -> Z;
  median_reducer : list Q -> Q;
  area : Geometry -> Q;
  responds : Request -> bool
}.

End EE.

(** ** Spectral indices (script lines 81 to 104) *)

Module Indices.
Import EE.

(** Lines 82 to 89: NBR from bands B8 (near infrared) and B12 (shortwave
    infrared) of a composite. *)
Definition nbr (name : string) (composite : Image) : Image :=
  let nir := select "B8" composite in
  let swir := select "B12" composite in
  rename name (divide (subtract nir swir) (add nir swir)).

(** Line 95. *)
Definition dnbr_of (prefire_nbr postfire_nbr : Image) : Image :=
  rename "DNBR" (subtract prefire_nbr postfire_nbr).

(** Lines 99 to 104. *)
Definition severity (dnbr : Image) : Image :=
  rename "SEVERITY"
    (where_
       (where_
          (where_
             (where_ (multiply (lt dnbr 0.05) (constant 0))
                     (And (gt dnbr 0.05) (lt dnbr 0.27)) 1)
             (And (gt dnbr 0.27) (lt dnbr 0.439)) 2)
          (And (gt dnbr 0.439) (lt dnbr 0.659)) 3)
       (gt dnbr 0.66) 4).

(** What the chain does to one unmasked value: the base is 0 and each
    [where] in turn may overwrite it. *)
Definition step (test : bool) (value acc : Q) : Q := if test then value else acc.

Definition severity_class (d : Q) : Q :=
  step (Num.gtb d 0.66) 4
    (step (Num.gtb d 0.439 && Num.ltb d 0.659) 3
       (step (Num.gtb d 0.27 && Num.ltb d 0.439) 2
          (step (Num.gtb d 0.05 && Num.ltb d 0.27) 1 0))).

End Indices.

(** ** Configuration (script lines 11 to 17) *)

Module Config.

Record t := {
  EE_PROJECT : string;
  REGION_NAME : string;
  BBOX : list Q;
  PRE_FIRE_START : string;
  PRE_FIRE_DATE : string;
  POST_FIRE_START : string;
  POST_FIRE_DATE : string
}.

(** The values the script ships with. *)
Definition source : t := {|
  EE_PROJECT := "user-project-id";
  REGION_NAME := "Camarillo";
  BBOX := [-119.1; 34.2; -118.9; 34.4];
  PRE_FIRE_START := "2024-10-01";
  PRE_FIRE_DATE := "2024-11-06";
  POST_FIRE_START := "2024-12-01";
  POST_FIRE_DATE := "2024-12-31"
|}.

End Config.

(** ** Text *)

Module Text.
Open Scope string_scope.

Definition dq : string := String (ascii_of_nat 34) EmptyString.   (* the double quote *)
Definition nl : string := String (ascii_of_nat 10) EmptyString.   (* line feed *)

(** Python's [s * n]. *)
Fixpoint times (s : string) (n : nat) : string :=
  match n with
  | O => EmptyString
  | S k => s ++ times s k
  end.

(** Every line followed by a line feed. *)
Fixpoint unlines (l : list string) : string :=
  match l with
  | [] => EmptyString
  | x :: rest => x ++ nl ++ unlines rest
  end.

(** [str] of an integer. *)
Definition str_int (z : Z) : string :=
  DecimalString.NilZero.string_of_int (Z.to_int z).

(** [s] occurs in [t]. *)
Definition Substring (s t : string) : Prop := exists a b, t = a ++ s ++ b.

(** [t] starts with [s]. *)
Fixpoint starts_with (s t : string) : bool :=
  match s, t with
  | EmptyString, _ => true
  | String a s', String b t' => Ascii.eqb a b && starts_with s' t'
  | String _ _, EmptyString => false
  end.

(** [s in t]. *)
Fixpoint contains (s t : string) : bool :=
  starts_with s t ||
  match t with
  | EmptyString => false
  | String _ t' => contains s t'
  end.

End Text.

(** ** The dashboard template (script lines 166 to 380)

    The f-string, one entry per source line; doubled braces are single
    braces in the value, the doubled backslashes single ones.  Lines that
    interpolate a value are functions of it. *)

Module Html.
Import Text.
Open Scope string_scope.

(** Template lines 167 to 171. *)
Definition static_1 : list string :=
  [ "<!DOCTYPE html>"
  ; "<html lang=" ++ dq ++ "en" ++ dq ++ ">"
  ; "<head>"
  ; "    <meta charset=" ++ dq ++ "UTF-8" ++ dq ++ ">"
  ; "    <meta name=" ++ dq ++ "viewport" ++ dq ++ " content=" ++ dq ++ "width=device-width, initial-scale=1.0" ++ dq ++ ">" ].

(** Template line 172. *)
Definition title_line (REGION_NAME : string) : string :=
  "    <title>Wildfire Dashboard - " ++ REGION_NAME ++ "</title>".

(** Template lines 173 to 332. *)
Definition static_2 : list string :=
  [ "    <style>"
  ; "        "
  ; "        *{"
  ; "            box-sizing: border-box;"
  ; "            font-family: Arial, sans-serif;"
  ; "            "
  ; "        }"
  ; "        "
  ; "        body {"
  ; "            background-color: #f5f5f5;"
  ; "            padding: 0;"
  ; "            margin: 0;"
  ; "            "
  ; "            width: 100%;"
  ; "            height: 95vh;"
  ; "            overflow: hidden;"
  ; "        }"
  ; "        "
  ; "        .main-container {"
  ; "            display: flex;"
  ; "            flex-direction: row;"
  ; "            height: 95vh;"
  ; "            padding: 10px;"
  ; "        }"
  ; "        "
  ; "        .side-bar {"
  ; "            width: 300px;"
  ; "            height: calc(98vh - 20px);"
  ; "            background-color: blanchedalmond;"
  ; "            padding: 20px;"
  ; "            margin: 10px;"
  ; "            border-radius: 10px;"
  ; "            box-shadow: 0 4px 6px rgba(0,0,0,0.1);"
  ; "            overflow-y: auto;"
  ; "            text-align: justify;"
  ; "            "
  ; "        }"
  ; "        "
  ; "        .main-content {"
  ; "            width: calc(100% - 340px);"
  ; "            height: calc(98vh - 20px);"
  ; "            background-color: beige;"
  ; "            padding: 20px;"
  ; "            margin: 10px;"
  ; "            border-radius: 10px;"
  ; "            box-shadow: 0 4px 6px rgba(0,0,0,0.1);"
  ; "            display: flex;"
  ; "            flex-direction: column;"
  ; "        }"
  ; "        "
  ; "        .header {"
  ; "            width: 100%;"
  ; "            background-color: burlywood;"
  ; "            padding: 20px;"
  ; "            border-radius: 10px;"
  ; "            margin-bottom: 20px;"
  ; "            box-shadow: 0 4px 6px rgba(0,0,0,0.1);"
  ; "            text-align: center;"
  ; "        }   "
  ; "        "
  ; "        .header .dashboard-title {"
  ; "            font-family: 'Segoe UI', Tahoma, Geneva, Verdana, sans-serif;"
  ; "            font-size: 22px;"
  ; "            font-weight: bold;"
  ; "            font-style: italic;"
  ; "            margin-bottom: 10px;"
  ; "            color: #333;"
  ; "        }"
  ; "        "
  ; "        .content {"
  ; "            display: flex;"
  ; "            flex-direction: column;"
  ; "            gap: 20px;"
  ; "        }"
  ; "        "
  ; "        .container {"
  ; "            background-color: rgba(255, 255, 255, 0.8);"
  ; "            padding: 15px;"
  ; "            border-radius: 8px;"
  ; "            "
  ; "            font-size: 12px;"
  ; "            color: #333;"
  ; "        }"
  ; "        "
  ; "        .info-box {"
  ; "            background-color: rgba(255, 255, 255, 0.8);"
  ; "            padding: 15px;"
  ; "            border-radius: 8px;"
  ; "            box-shadow: 0 2px 4px rgba(0,0,0,0.1);"
  ; "        }"
  ; "        "
  ; "        .info-box h3 {"
  ; "            color: #8B4513;"
  ; "            margin-top: 0;"
  ; "            margin-bottom: 10px;"
  ; "            font-size: 18px;"
  ; "        }"
  ; "        "
  ; "        .info-box p {"
  ; "            margin: 8px 0;"
  ; "            line-height: 1.5;"
  ; "            color: #333;"
  ; "        }"
  ; "        "
  ; "        .footer {"
  ; "            background-color: rgba(255, 255, 255, 0.8);"
  ; "            padding: 15px;"
  ; "            border-radius: 8px;"
  ; "            font-size: 12px;"
  ; "            color: #666;"
  ; "            text-align: center;"
  ; "            margin-top: 10px;"
  ; "        }"
  ; "        "
  ; "        .footer p {"
  ; "            margin: 5px 0;"
  ; "        }"
  ; "        "
  ; "        .map {"
  ; "            width: 100%;"
  ; "            height: 100%;"
  ; "            border-radius: 8px;"
  ; "            overflow: hidden;"
  ; "        }"
  ; "        "
  ; "        iframe {"
  ; "            width: 100%;"
  ; "            height: 100%;"
  ; "            border: none;"
  ; "            display: block;"
  ; "        }"
  ; "        "
  ; "        /* Custom scrollbar */"
  ; "        .side-bar::-webkit-scrollbar {"
  ; "            width: 8px;"
  ; "        }"
  ; "        "
  ; "        .side-bar::-webkit-scrollbar-track {"
  ; "            background: rgba(255, 255, 255, 0.3);"
  ; "            border-radius: 10px;"
  ; "        }"
  ; "        "
  ; "        .side-bar::-webkit-scrollbar-thumb {"
  ; "            background: rgba(139, 69, 19, 0.5);"
  ; "            border-radius: 10px;"
  ; "        }"
  ; "        "
  ; "        .side-bar::-webkit-scrollbar-thumb:hover {"
  ; "            background: rgba(139, 69, 19, 0.7);"
  ; "        }"
  ; "    </style>"
  ; "</head>"
  ; "<body>"
  ; "    <div class=" ++ dq ++ "main-container" ++ dq ++ ">"
  ; "        <div class=" ++ dq ++ "side-bar" ++ dq ++ ">"
  ; "            <div class=" ++ dq ++ "header" ++ dq ++ ">"
  ; "                <div class=" ++ dq ++ "dashboard-title" ++ dq ++ ">🔥 Wildfire Burn Severity Dashboard</div>"
  ; "            </div>"
  ; "            <div class=" ++ dq ++ "content" ++ dq ++ ">"
  ; "                <div class=" ++ dq ++ "container" ++ dq ++ ">" ].

(** Template line 333. *)
Definition region_line (REGION_NAME : string) : string :=
  "                    <div style=" ++ dq ++ "font-size: 18px; font-weight: bold; margin-bottom: 8px;" ++ dq ++ ">Region: " ++ REGION_NAME ++ "</div>".

(** Template line 334. *)
Definition period_line (PRE_FIRE_DATE : string) (POST_FIRE_DATE : string) : string :=
  "                    <div>Analysis Period: " ++ PRE_FIRE_DATE ++ " to " ++ POST_FIRE_DATE ++ "</div>".

(** Template lines 335 to 337. *)
Definition static_3 : list string :=
  [ "                "
  ; "                    <h3>Project Overview</h3>"
  ; "                    <p>This dashboard displays burn severity analysis using Sentinel-2 satellite imagery. The dNBR (differenced Normalized Burn Ratio) method is used to classify burn severity into five categories.</p>" ].

(** Template line 338. *)
Definition area_line (area_sqkm_2f : string) (area_ha_2f : string) : string :=
  "                    <p><strong>Total Study Area:</strong> " ++ area_sqkm_2f ++ " km² (" ++ area_ha_2f ++ " hectares)</p>".

(** Template lines 339 to 346. *)
Definition static_4 : list string :=
  [ "                </div>"
  ; EmptyString
  ; "                <div class=" ++ dq ++ "container" ++ dq ++ ">"
  ; "                    <h3>📋 Data Sources & Methods</h3>"
  ; "                    <p><strong>Satellite Data:</strong> Sentinel-2 Level-2A Surface Reflectance</p>"
  ; "                    <p><strong>Analysis Method:</strong> dNBR (differenced Normalized Burn Ratio)</p>"
  ; "                    <p><strong>Resolution:</strong> 30 meters</p>"
  ; "                    <p><strong>Cloud Filter:</strong> &lt; 20% cloud coverage</p>" ].

(** Template line 347. *)
Definition generated_line (generated : string) : string :=
  "                    <p><strong>Generated:</strong> " ++ generated ++ "</p>".

(** Template lines 348 to 356. *)
Definition static_5 : list string :=
  [ "                </div>"
  ; "                <div class=" ++ dq ++ "footer" ++ dq ++ ">"
  ; "                    <p>Wildfire Burn Severity Analysis Dashboard | Generated using Google Earth Engine and Python</p>"
  ; "                    <p>Data: Copernicus Sentinel-2 | Method: dNBR Classification</p>"
  ; "                </div>"
  ; "            </div>"
  ; "        </div>"
  ; "        <div class=" ++ dq ++ "main-content" ++ dq ++ ">"
  ; "            <div class=" ++ dq ++ "map" ++ dq ++ ">" ].

(** Template line 357. *)
Definition iframe_line (REGION_NAME : string) : string :=
  "                <iframe id=" ++ dq ++ "mapFrame" ++ dq ++ " src=" ++ dq ++ "map_" ++ REGION_NAME ++ ".html" ++ dq ++ "></iframe>".

(** Template lines 358 to 362. *)
Definition static_6 : list string :=
  [ "            </div>"
  ; "        </div>"
  ; "    </div>"
  ; "    <script>"
  ; "        // Load the map initially" ].

(** Template line 363. *)
Definition script_src_line (REGION_NAME : string) : string :=
  "        document.getElementById('mapFrame').src = 'map_" ++ REGION_NAME ++ ".html';".

(** Template lines 364 to 375. *)
Definition static_7 : list string :=
  [ "        "
  ; "        // Function to handle layer switching"
  ; "        function showLayer(layerType) {"
  ; "            alert('In a full implementation, this would control map layers\n\nSelected: ' + layerType + ' layer');"
  ; "        }"
  ; "        "
  ; "        // Auto-refresh iframe every 30 seconds to ensure it loads"
  ; "        setTimeout(function() {"
  ; "            var iframe = document.getElementById('mapFrame');"
  ; "            iframe.src = iframe.src;"
  ; "        }, 30000);"
  ; "        " ].

(** Template line 376. *)
Definition console_line (REGION_NAME : string) : string :=
  "        console.log('Wildfire Dashboard loaded for " ++ REGION_NAME ++ "');".

(** Template lines 377 to 379. *)
Definition static_8 : list string :=
  [ "    </script>"
  ; "</body>"
  ; "</html>" ].

(** The whole f-string: it opens with a line feed, and each line of the
    template ends with one. *)
Definition dashboard_html
    (REGION_NAME PRE_FIRE_DATE POST_FIRE_DATE area_sqkm_2f area_ha_2f generated : string)
    : string :=
  nl ++
  unlines
    (static_1 ++ [title_line REGION_NAME] ++
     static_2 ++ [region_line REGION_NAME; period_line PRE_FIRE_DATE POST_FIRE_DATE] ++
     static_3 ++ [area_line area_sqkm_2f area_ha_2f] ++
     static_4 ++ [generated_line generated] ++
     static_5 ++ [iframe_line REGION_NAME] ++
     static_6 ++ [script_src_line REGION_NAME] ++
     static_7 ++ [console_line REGION_NAME] ++
     static_8).

End Html.

(** ** The map object ([geemap.Map]) *)

Module Geemap.

Record Vis := { vis_min : Q; vis_max : Q; palette : list string }.

Record Layer := { ee_object : EE.Image; vis_params : Vis; layer_name : string }.

Record Legend := {
  title : string;
  legend_dict : list (string * string);
  position : string
}.

Record Map := {
  center : Q * Q;                    (* latitude, longitude *)
  zoom : Z;
  basemaps : list string;
  layers : list Layer;
  legends : list Legend
}.

Definition new (center : Q * Q) (zoom : Z) : Map :=
  {| center := center; zoom := zoom; basemaps := []; layers := []; legends := [] |}.

Definition add_basemap (b : string) (m : Map) : Map :=
  {| center := center m; zoom := zoom m; basemaps := basemaps m ++ [b];
     layers := layers m; legends := legends m |}.

Definition addLayer (img : EE.Image) (vis : Vis) (name : string) (m : Map) : Map :=
  {| center := center m; zoom := zoom m; basemaps := basemaps m;
     layers := layers m ++ [{| ee_object := img; vis_params := vis; layer_name := name |}];
     legends := legends m |}.

Definition add_legend (l : Legend) (m : Map) : Map :=
  {| center := center m; zoom := zoom m; basemaps := basemaps m;
     layers := layers m; legends := legends m ++ [l] |}.

End Geemap.

(** ** The script *)

Module Script.
Import Text.
Open Scope string_scope.

(** What the interpreter and the libraries around the script supply:
    [repr] of a list of floats, the [.2f] format, the formatted clock,
    the page [Map.to_html] renders, and whether a path can be opened for
    writing. *)
Record Host := {
  repr_list : list Q -> string;
  format_2f : Q -> string;
  strftime_now : string;
  render : Geemap.Map -> string;
  writable : string -> bool
}.

(** What a run leaves behind, in order. *)
Inductive Event :=
| Printed (text : string)
| Requested (r : EE.Request)
| MapSaved (path content : string)       (* [Map.to_html] *)
| FileWritten (path content : string).   (* [open(..., 'w')] and [write] *)

(** How a run stops short: [exit()], or an exception nobody catches. *)
Inductive Halt :=
| Exited
| Uncaught (exception : string).

(** A step: the events it adds, and a value or the reason it stopped. *)
Definition M (A : Type) : Type := (list Event * (Halt + A))%type.

Definition ret {A} (a : A) : M A := ([], inr a).

Definition bind {A B} (m : M A) (k : A -> M B) : M B :=
  let (t, r) := m in
  match r with
  | inl h => (t, inl h)
  | inr a => let (t', r') := k a in ((t ++ t')%list, r')
  end.

Notation "x <- c1 ;; c2" := (bind c1 (fun x => c2))
  (at level 61, c1 at next level, right associativity).
Notation "c1 ;; c2" := (bind c1 (fun _ => c2))
  (at level 61, right associativity).

Definition print (text : string) : M unit := ([Printed text], inr tt).
Definition exit : M unit := ([], inl Exited).
Definition raise {A} (exception : string) : M A := ([], inl (Uncaught exception)).

(** [try: body / except: handler], the bare form that catches anything. *)
Definition try_except (body handler : M unit) : M unit :=
  let (t, r) := body in
  match r with
  | inl _ => let (t', r') := handler in ((t ++ t')%list, r')
  | inr a => (t, inr a)
  end.

(** A blocking request: it is issued, then returns the value or raises. *)
Definition request {A} (svc : EE.Service) (r : EE.Request) (value : A) : M A :=
  if EE.responds svc r
  then ([Requested r], inr value)
  else ([Requested r], inl (Uncaught "EEException")).

Definition of_option {A} (exception : string) (o : option A) : M A :=
  match o with
  | Some a => ret a
  | None => raise exception
  end.

Definition save_map (host : Host) (path : string) (m : Geemap.Map) : M unit :=
  if writable host path
  then ([MapSaved path (render host m)], inr tt)
  else raise "OSError".

Definition write_file (host : Host) (path content : string) : M unit :=
  if writable host path
  then ([FileWritten path content], inr tt)
  else raise "OSError".

Definition banner (text : string) : M unit :=
  print (nl ++ times "=" 50) ;;
  print text ;;
  print (times "=" 50).

Section Run.
Import Config.
Variable cfg : Config.t.
Variable host : Host.
Variable svc : EE.Service.

(** Lines 19 to 21. *)
Definition header : M unit :=
  print (nl ++ "Study Area: " ++ REGION_NAME cfg) ;;
  print ("Coordinates: " ++ repr_list host (BBOX cfg)) ;;
  print ("Date Range: " ++ PRE_FIRE_DATE cfg ++ " to " ++ POST_FIRE_DATE cfg).

(** Line 25. *)
Definition ee_Initialize : M unit :=
  if EE.initialize svc (EE_PROJECT cfg) then ret tt else raise "EEException".

(** Lines 24 to 29. *)
Definition connect : M unit :=
  try_except
    (ee_Initialize ;;
     print "Google Earth Engine connected Successfully")
    (print "Google Earth Engine connection failed" ;;
     print "Run: earthengine authenticate").

(** Lines 36 and 37. *)
Definition area_sqkm (area_sqm : Q) : Q := area_sqm / 1000000.
Definition area_ha (area_sqm : Q) : Q := area_sqm / 10000.

(** Lines 48 to 54. *)
Definition images (start stop : string) (region_of_interest : EE.Geometry)
    : EE.ImageCollection :=
  EE.filter_ (EE.Filter_lt "CLOUDY_PIXEL_PERCENTAGE" 20)
    (EE.filterBounds region_of_interest
       (EE.filterDate (EE.date_millis svc start) (EE.date_millis svc stop)
          (EE.catalog svc "COPERNICUS/S2_SR_HARMONIZED"))).

Definition prefire_images := images (PRE_FIRE_START cfg) (PRE_FIRE_DATE cfg).
Definition postfire_images := images (POST_FIRE_START cfg) (POST_FIRE_DATE cfg).

(** Lines 71 and 72. *)
Definition composite (c : EE.ImageCollection) (region_of_interest : EE.Geometry)
    : EE.Image :=
  EE.clip region_of_interest (EE.median (EE.median_reducer svc) c).

Definition pre_fire_image roi := composite (prefire_images roi) roi.
Definition post_fire_image roi := composite (postfire_images roi) roi.

(** Lines 82 to 95. *)
Definition prefire_nbr roi := Indices.nbr "PREFIRE_NBR" (pre_fire_image roi).
Definition postfire_nbr roi := Indices.nbr "POSTFIRE_NBR" (post_fire_image roi).
Definition dnbr roi := Indices.dnbr_of (prefire_nbr roi) (postfire_nbr roi).

(** Lines 99 to 104. *)
Definition severity roi := Indices.severity (dnbr roi).

(** Lines 106 to 143. *)
Definition severity_vis : Geemap.Vis :=
  {| Geemap.vis_min := 0; Geemap.vis_max := 4;
     Geemap.palette := ["#00ff00"; "#ffff00"; "#ff9900"; "#ff0000"; "#7a0000"] |}.
Definition nbr_vis : Geemap.Vis :=
  {| Geemap.vis_min := -1; Geemap.vis_max := 1;
     Geemap.palette := ["brown"; "yellow"; "green"] |}.
Definition dnbr_vis : Geemap.Vis :=
  {| Geemap.vis_min := -1; Geemap.vis_max := 1;
     Geemap.palette := ["brown"; "yellow"; "orange"; "red"] |}.
Definition legend : Geemap.Legend :=
  {| Geemap.title := "Burn Severity (dNBR)";
     Geemap.legend_dict :=
       [("Unburned", "#00ff00"); ("Low severity", "#ffff00");
        ("Moderate-Low", "#ff9900"); ("Moderate-High", "#ff0000");
        ("High severity", "#7a0000")];
     Geemap.position := "bottomright" |}.

(** [BBOX[i]]. *)
Definition bbox_at (i : nat) : M Q := of_option "IndexError" (nth_error (BBOX cfg) i).

(** Lines 123 and 124. *)
Definition center_lat : M Q :=
  s <- bbox_at 1 ;; n <- bbox_at 3 ;; ret ((s + n) / 2)%Q.
Definition center_lon : M Q :=
  w <- bbox_at 0 ;; e <- bbox_at 2 ;; ret ((w + e) / 2)%Q.

(** [Map.addLayer]: the tiles of the layer are asked of the service. *)
Definition add_layer (img : EE.Image) (vis : Geemap.Vis) (name : string)
    (m : Geemap.Map) : M Geemap.Map :=
  request svc (EE.GetMapId name) (Geemap.addLayer img vis name m).

(** Lines 123 to 150. *)
Definition build_map (roi : EE.Geometry) : M Geemap.Map :=
  lat <- center_lat ;;
  lon <- center_lon ;;
  m1 <- add_layer (prefire_nbr roi) nbr_vis "PREFIRE_NBR"
          (Geemap.add_basemap "HYBRID" (Geemap.new (lat, lon) 10)) ;;
  m2 <- add_layer (postfire_nbr roi) nbr_vis "POSTFIRE_NBR" m1 ;;
  m3 <- add_layer (dnbr roi) dnbr_vis "DNBR" m2 ;;
  m4 <- add_layer (severity roi) severity_vis "SEVERITY" m3 ;;
  ret (Geemap.add_legend legend m4).

(** Lines 155 and 383. *)
Definition map_path : string := "./outputs/map_" ++ REGION_NAME cfg ++ ".html".
Definition dashboard_filename : string :=
  "./outputs/wildfire_dashboard_" ++ REGION_NAME cfg ++ ".html".

(** Lines 166 to 380. *)
Definition dashboard_html (sqkm ha : Q) : string :=
  Html.dashboard_html (REGION_NAME cfg) (PRE_FIRE_DATE cfg) (POST_FIRE_DATE cfg)
    (format_2f host sqkm) (format_2f host ha) (strftime_now host).

(** Lines 63 to 68. *)
Definition check_counts (pre_count post_count : Z) : M unit :=
  if (pre_count =? 0)%Z || (post_count =? 0)%Z then
    print " No images found! Try:" ;;
    print "  1. Expanding date range" ;;
    print "  2. Increasing cloud cover threshold" ;;
    print "  3. Checking coordinates" ;;
    exit
  else ret tt.

(** Lines 71 to 387, what follows the check. *)
Definition after_check (roi : EE.Geometry) (sqkm ha : Q) : M unit :=
  print "✅ Created cloud-free composite image for pre-fire images)" ;;
  banner "STEP 2: Calculating Spectral Indices" ;;
  print "✓ NBR calculated" ;;
  banner "STEP 4: Creating Interactive Map" ;;
  m <- build_map roi ;;
  save_map host map_path m ;;
  print ("Interactive map saved: " ++ map_path) ;;
  banner "STEP 7: Creating Interactive HTML Dashboard" ;;
  write_file host dashboard_filename (dashboard_html sqkm ha) ;;
  print ("Interactive dashboard saved: " ++ dashboard_filename).

(** Lines 32 to 387, what follows the connection attempt. *)
Definition after_connect : M unit :=
  roi <- of_option "EEException" (EE.Rectangle (BBOX cfg)) ;;
  area_sqm <- request svc EE.GetArea (EE.area svc roi) ;;
  print ("Area: " ++ format_2f host (area_sqkm area_sqm) ++ " km²") ;;
  print ("Area: " ++ format_2f host (area_ha area_sqm) ++ " ha") ;;
  banner "Loading Sentinel-2 Data" ;;
  pre_count <- request svc EE.GetPreCount (EE.size (prefire_images roi)) ;;
  post_count <- request svc EE.GetPostCount (EE.size (postfire_images roi)) ;;
  print (nl ++ "Found " ++ str_int pre_count ++ ", " ++ str_int post_count
            ++ " Sentinel-2 images") ;;
  check_counts pre_count post_count ;;
  after_check roi (area_sqkm area_sqm) (area_ha area_sqm).

(** The whole script. *)
Definition main : M unit :=
  header ;;
  connect ;;
  after_connect.

End Run.

(** The observations claims are made about. *)
Definition trace {A} (m : M A) : list Event := fst m.
Definition status {A} (m : M A) : Halt + A := snd m.

Definition printed (t : list Event) : list string :=
  flat_map (fun e => match e with Printed s => [s] | _ => [] end) t.

Definition requests (t : list Event) : list EE.Request :=
  flat_map (fun e => match e with Requested r => [r] | _ => [] end) t.

(** The pages written with [open] and [write]: path and content. *)
Definition pages (t : list Event) : list (string * string) :=
  flat_map (fun e => match e with FileWritten p c => [(p, c)] | _ => [] end) t.

(** The maps saved with [Map.to_html]: path and content. *)
Definition maps (t : list Event) : list (string * string) :=
  flat_map (fun e => match e with MapSaved p c => [(p, c)] | _ => [] end) t.

(** The remediation hints of lines 64 to 67. *)
Definition hints : list string :=
  [" No images found! Try:"; "  1. Expanding date range";
   "  2. Increasing cloud cover threshold"; "  3. Checking coordinates"].

(** The same service, except that [ee.Initialize] goes through. *)
Definition connected (svc : EE.Service) : EE.Service :=
  {| EE.initialize := fun _ => true;
     EE.catalog := EE.catalog svc;
     EE.date_millis := EE.date_millis svc;
     EE.median_reducer := EE.median_reducer svc;
     EE.area := EE.area svc;
     EE.responds := EE.responds svc |}.

(** Paths of the files a run wrote, by either route. *)
Definition files_written (t : list Event) : list string :=
  flat_map (fun e => match e with
                     | MapSaved p _ => [p]
                     | FileWritten p _ => [p]
                     | _ => []
                     end) t.

End Script.

(** ** Paths *)

Module Path.
Open Scope string_scope.

(** The pieces of [s] between slashes, [acc] being the piece in progress. *)
Fixpoint split (acc s : string) : list string :=
  match s with
  | EmptyString => [acc]
  | String c rest =>
      if Ascii.eqb c "/" then acc :: split EmptyString rest
      else split (acc ++ String c EmptyString) rest
  end.

(** The components a relative path names: empty pieces and [.] name
    nothing. *)
Definition components (path : string) : list string :=
  filter (fun c => negb (String.eqb c EmptyString || String.eqb c "."))
         (split EmptyString path).

End Path.

(** ** The area conversions in binary64 (script lines 36 and 37)

    The same two divisions as [Script.area_sqkm] and [Script.area_ha], on
    the floats the interpreter computes with. *)

Module Binary64.
Open Scope float_scope.

Definition area_sqkm (area_sqm : float) : float := area_sqm / 1000000.
Definition area_ha (area_sqm : float) : float := area_sqm / 10000.

End Binary64.

(** ** The rule as the specification words it *)

Module Stated.

(** The five stated bins: class 0 below 0.05, then the open intervals,
    class 4 above 0.66. *)
Inductive class_of : Q -> Q -> Prop :=
| unburned d : d < 0.05 -> class_of d 0
| low d : 0.05 < d -> d < 0.27 -> class_of d 1
| moderate_low d : 0.27 < d -> d < 0.439 -> class_of d 2
| moderate_high d : 0.439 < d -> d < 0.659 -> class_of d 3
| high d : 0.66 < d -> class_of d 4.

(** The values the bins leave out: the three shared end points and the
    stretch from 0.659 to 0.66. *)
Definition on_boundary (d : Q) : Prop :=
  d == 0.05 \/ d == 0.27 \/ d == 0.439 \/ (0.659 <= d /\ d <= 0.66).

Definition classes : list Q := [0; 1; 2; 3; 4].

(** A pixel is unclassified when its output is none of the five classes. *)
Definition unclassified (out : option Q) : Prop :=
  forall c, In c classes -> out <> Some c.

(** NBR and dNBR of one pixel, masked when an input is. *)
Definition NBR (nir swir : option Q) : option Q :=
  EE.lift2 Qdiv (EE.lift2 Qminus nir swir) (EE.lift2 Qplus nir swir).

Definition dNBR (nbr_pre nbr_post : option Q) : option Q :=
  EE.lift2 Qminus nbr_pre nbr_post.

(** The median composite of a collection over a region: inside the
    region the reducer over the unmasked values, masked when there is
    none; masked outside. *)
Definition median_composite (reducer : list Q -> Q) (c : EE.ImageCollection)
    (region : EE.Geometry) (band : string) (p : EE.Pixel) : option Q :=
  if EE.contains region p then
    match EE.band_values c band p with
    | [] => None
    | vs => Some (reducer vs)
    end
  else None.

(** A scene is in a date window for a region when it was taken from
    [start] on and before [stop], touches the region and is less than 20
    percent cloudy. *)
Definition in_window (start stop : Z) (region : EE.Geometry) (s : EE.Scene) : Prop :=
  (start <= EE.time_start s < stop)%Z /\
  EE.intersects (EE.footprint s) region = true /\
  exists cloud, EE.property s "CLOUDY_PIXEL_PERCENTAGE" = Some cloud /\ cloud < 20.

End Stated.

(** ** A small world to run the script in *)

Module Demo.
Open Scope string_scope.

Definition flat (v : Q) : EE.Raster := fun _ => Some v.

Definition scene (t : Z) (cloud nir swir : Q) : EE.Scene :=
  {| EE.time_start := t;
     EE.property := fun name =>
       if String.eqb name "CLOUDY_PIXEL_PERCENTAGE" then Some cloud else None;
     EE.footprint := {| EE.xMin := -120; EE.yMin := 34; EE.xMax := -118; EE.yMax := 35 |};
     EE.bands := [("B8", flat nir); ("B12", flat swir)] |}.

(** Midnight UTC of the four dates of [Config.source], in milliseconds. *)
Definition date_millis (d : string) : Z :=
  if String.eqb d "2024-10-01" then 1727740800000
  else if String.eqb d "2024-11-06" then 1730851200000
  else if String.eqb d "2024-12-01" then 1733011200000
  else if String.eqb d "2024-12-31" then 1735603200000
  else 0.

(** Insertion sort and the middle element. *)
Fixpoint insert (x : Q) (l : list Q) : list Q :=
  match l with
  | [] => [x]
  | y :: rest => if Qle_bool x y then x :: l else y :: insert x rest
  end.

Definition middle (l : list Q) : Q :=
  let sorted := fold_right insert [] l in
  nth (Nat.div2 (length sorted)) sorted 0%Q.

(** One clear scene before the fire with NBR 1/2, and after it scenes
    whose NBR is [post_nbr_num / 40]. *)
Definition catalog (post_nir post_swir : Q) (name : string) : EE.ImageCollection :=
  if String.eqb name "COPERNICUS/S2_SR_HARMONIZED" then
    [ scene 1729000000000 5 3 1;
      scene 1729500000000 60 9 1;
      scene 1734000000000 5 post_nir post_swir ]
  else [].

Definition service (connects : bool) (post_nir post_swir : Q) : EE.Service :=
  {| EE.initialize := fun _ => connects;
     EE.catalog := catalog post_nir post_swir;
     EE.date_millis := date_millis;
     EE.median_reducer := middle;
     EE.area := fun _ => 407900002%Q;
     EE.responds := fun _ => true |}.

(** A service with nothing in the catalogue. *)
Definition empty_service : EE.Service :=
  {| EE.initialize := fun _ => true;
     EE.catalog := fun _ => [];
     EE.date_millis := date_millis;
     EE.median_reducer := middle;
     EE.area := fun _ => 407900002%Q;
     EE.responds := fun _ => true |}.

(** Two decimals, by truncation: enough to tell the figures apart. *)
Definition two_decimals (x : Q) : string :=
  let cents := (Qnum (x * 100) / QDen (x * 100))%Z in
  Text.str_int (cents / 100) ++ "." ++
  Text.str_int ((cents mod 100) / 10) ++ Text.str_int (cents mod 10).

Definition host : Script.Host :=
  {| Script.repr_list := fun _ => "[-119.1, 34.2, -118.9, 34.4]";
     Script.format_2f := two_decimals;
     Script.strftime_now := "2025-01-15 09:30:00";
     Script.render := fun _ => "<html>map</html>";
     Script.writable := fun _ => true |}.

Definition roi : EE.Geometry :=
  {| EE.xMin := -119.1; EE.yMin := 34.2; EE.xMax := -118.9; EE.yMax := 34.4 |}.

Definition inside : EE.Pixel := (-119, 34.3)%Q.

End Demo.

(** ** What a complete run asks and draws *)

Module Observed.
Open Scope string_scope.

(** The blocking requests of the script, in source order. *)
Definition request_order : list EE.Request :=
  [EE.GetArea; EE.GetPreCount; EE.GetPostCount;
   EE.GetMapId "PREFIRE_NBR"; EE.GetMapId "POSTFIRE_NBR";
   EE.GetMapId "DNBR"; EE.GetMapId "SEVERITY"].

(** The layers of lines 146 to 149, bottom to top. *)
Definition source_layers (cfg : Config.t) (svc : EE.Service) (roi : EE.Geometry)
    : list Geemap.Layer :=
  [ {| Geemap.ee_object := Script.prefire_nbr cfg svc roi;
       Geemap.vis_params := Script.nbr_vis; Geemap.layer_name := "PREFIRE_NBR" |};
    {| Geemap.ee_object := Script.postfire_nbr cfg svc roi;
       Geemap.vis_params := Script.nbr_vis; Geemap.layer_name := "POSTFIRE_NBR" |};
    {| Geemap.ee_object := Script.dnbr cfg svc roi;
       Geemap.vis_params := Script.dnbr_vis; Geemap.layer_name := "DNBR" |};
    {| Geemap.ee_object := Script.severity cfg svc roi;
       Geemap.vis_params := Script.severity_vis; Geemap.layer_name := "SEVERITY" |} ].

End Observed.

(** * Properties *)

Module NumFacts.
Import Num.

Lemma ltb_lt x y : ltb x y = true <-> x < y.
Proof. unfold ltb, Qlt. apply Z.ltb_lt. Qed.

Lemma ltb_nlt x y : ltb x y = false <-> ~ x < y.
Proof. unfold ltb, Qlt. apply Z.ltb_nlt. Qed.

Lemma gtb_lt x y : gtb x y = true <-> y < x.
Proof. apply ltb_lt. Qed.

Lemma gtb_nlt x y : gtb x y = false <-> ~ y < x.
Proof. apply ltb_nlt. Qed.

Lemma nonzero_of_bool b : nonzero (of_bool b) = b.
Proof. destruct b; reflexivity. Qed.

End NumFacts.

Module IndicesFacts.
Import EE Indices.

Lemma first_band_select name img p :
  first_band (select name img) p = sample img name p.
Proof.
  induction img as [|[n r] rest IH]; cbn; [reflexivity|].
  destruct (String.eqb n name); [reflexivity | exact IH].
Qed.

Lemma first_band_binop f a b p :
  first_band (binop f a b) p = lift2 f (first_band a p) (first_band b p).
Proof.
  destruct a as [|[n r] a']; [reflexivity|].
  destruct b as [|[m t] b']; cbn; [|reflexivity].
  destruct (r p); reflexivity.
Qed.

Lemma first_band_rename name img p :
  first_band (rename name img) p = first_band img p.
Proof. destruct img as [|[n r] rest]; reflexivity. Qed.

Lemma sample_rename name img p :
  sample (rename name img) name p = first_band img p.
Proof.
  destruct img as [|[n r] rest]; cbn; [reflexivity|].
  rewrite String.eqb_refl. reflexivity.
Qed.

(** NBR of a composite, pixel by pixel. *)
Lemma first_band_nbr name composite p :
  first_band (nbr name composite) p
  = lift2 Qdiv
      (lift2 Qminus (sample composite "B8" p) (sample composite "B12" p))
      (lift2 Qplus (sample composite "B8" p) (sample composite "B12" p)).
Proof.
  unfold nbr, divide, subtract, add.
  rewrite first_band_rename, !first_band_binop, !first_band_select.
  reflexivity.
Qed.

Lemma sample_dnbr_of a b p :
  sample (dnbr_of a b) "DNBR" p = lift2 Qminus (first_band a p) (first_band b p).
Proof.
  unfold dnbr_of, subtract. rewrite sample_rename, first_band_binop. reflexivity.
Qed.

Lemma first_band_dnbr_of a b p :
  first_band (dnbr_of a b) p = sample (dnbr_of a b) "DNBR" p.
Proof.
  unfold dnbr_of. rewrite first_band_rename, sample_rename. reflexivity.
Qed.

(** The raster expression of lines 99 to 104 only ever looks at the first
    band of its input: sampled at a pixel it is [severity_class] of the
    value there, and masked where the input is. *)
Lemma severity_sample img p :
  sample (severity img) "SEVERITY" p = option_map severity_class (first_band img p).
Proof.
  destruct img as [|[n r] [|b rest]]; [reflexivity| |];
    unfold severity, severity_class, step; cbn;
    (destruct (r p) as [d|]; cbn; [|reflexivity]);
    rewrite !NumFacts.nonzero_of_bool;
    destruct (Num.gtb d 0.05), (Num.ltb d 0.27), (Num.gtb d 0.27),
      (Num.ltb d 0.439), (Num.gtb d 0.439), (Num.ltb d 0.659),
      (Num.gtb d 0.66), (Num.ltb d 0.05); reflexivity.
Qed.

(** Turn every comparison of [d] in the goal into the order fact it
    decides. *)
Ltac split_tests :=
  unfold Num.gtb;
  repeat match goal with
  | |- context [Num.ltb ?x ?y] =>
      let H := fresh "T" in
      destruct (Num.ltb x y) eqn:H;
      [apply NumFacts.ltb_lt in H | apply NumFacts.ltb_nlt in H]
  end.

(** On the five stated bins the chain gives the stated class. *)
Lemma severity_class_stated d c :
  Stated.class_of d c -> severity_class d = c.
Proof.
  intros H; destruct H; unfold severity_class, step;
    split_tests; cbn; try reflexivity; exfalso; lra.
Qed.

(** On the left-out values no test of the chain holds, nor does the test
    of the base raster, and the base value 0 stays. *)
Lemma severity_class_boundary d :
  Stated.on_boundary d ->
  (Num.ltb d 0.05 = false) /\
  (Num.gtb d 0.05 && Num.ltb d 0.27 = false) /\
  (Num.gtb d 0.27 && Num.ltb d 0.439 = false) /\
  (Num.gtb d 0.439 && Num.ltb d 0.659 = false) /\
  (Num.gtb d 0.66 = false) /\
  (severity_class d = 0).
Proof.
  intros H. unfold severity_class, step.
  destruct H as [H|[H|[H|[H1 H2]]]];
    split_tests; cbn; repeat split; try reflexivity; exfalso; lra.
Qed.

Lemma severity_class_range d : In (severity_class d) Stated.classes.
Proof.
  unfold severity_class, step, Stated.classes.
  destruct (Num.gtb d 0.66), (Num.gtb d 0.439 && Num.ltb d 0.659),
    (Num.gtb d 0.27 && Num.ltb d 0.439), (Num.gtb d 0.05 && Num.ltb d 0.27);
    cbn; tauto.
Qed.

End IndicesFacts.

Module CollectionFacts.
Import EE.

Lemma sample_clip g img name p :
  sample (clip g img) name p = if contains g p then sample img name p else None.
Proof.
  induction img as [|[n r] rest IH]; cbn.
  - destruct (contains g p); reflexivity.
  - destruct (String.eqb n name); [reflexivity | exact IH].
Qed.

(** Sampling a band that is there, in an image built band by band from
    the name. *)
Lemma sample_by_name (g : string -> Raster) (l : Image) name p :
  existsb (String.eqb name) (bandNames l) = true ->
  sample (map (fun b => (fst b, g (fst b))) l) name p = g name p.
Proof.
  induction l as [|[n r] rest IH]; cbn; [discriminate|].
  rewrite (String.eqb_sym name n).
  destruct (String.eqb n name) eqn:E; cbn.
  - intros _. apply String.eqb_eq in E. subst n. reflexivity.
  - exact IH.
Qed.

Lemma sample_median reducer c name p :
  (forall s, In s c -> has_band name s = true) ->
  sample (median reducer c) name p
  = match band_values c name p with
    | [] => None
    | vs => Some (reducer vs)
    end.
Proof.
  intros H. destruct c as [|s0 rest]; [reflexivity|].
  unfold median.
  apply (sample_by_name
           (fun n q => match band_values (s0 :: rest) n q with
                       | [] => None
                       | vs => Some (reducer vs)
                       end)).
  apply (H s0). left. reflexivity.
Qed.

Lemma Filter_lt_spec name value s :
  Filter_lt name value s = true <->
  exists x, property s name = Some x /\ x < value.
Proof.
  unfold Filter_lt. destruct (property s name) as [x|]; split.
  - intros H. exists x. split; [reflexivity | apply NumFacts.ltb_lt; exact H].
  - intros [y [E H]]. injection E as ->. apply NumFacts.ltb_lt. exact H.
  - discriminate.
  - intros [y [E _]]. discriminate.
Qed.

End CollectionFacts.

Module PipelineFacts.
Import EE Script.
Open Scope string_scope.

(** The scenes a window keeps are the catalogue's scenes in the window. *)
Lemma images_spec svc start stop roi s :
  In s (images svc start stop roi) <->
  In s (catalog svc "COPERNICUS/S2_SR_HARMONIZED") /\
  Stated.in_window (date_millis svc start) (date_millis svc stop) roi s.
Proof.
  unfold images, filter_, filterBounds, filterDate, Stated.in_window.
  rewrite !filter_In, andb_true_iff, Z.leb_le, Z.ltb_lt.
  rewrite CollectionFacts.Filter_lt_spec. tauto.
Qed.

Lemma images_from_catalog svc start stop roi s :
  In s (images svc start stop roi) ->
  In s (catalog svc "COPERNICUS/S2_SR_HARMONIZED").
Proof. intros H. apply images_spec in H. tauto. Qed.

(** The composite of lines 71 and 72 is the median composite. *)
Lemma sample_composite svc c roi name p :
  (forall s, In s c -> has_band name s = true) ->
  sample (composite svc c roi) name p
  = Stated.median_composite (median_reducer svc) c roi name p.
Proof.
  intros H. unfold composite, Stated.median_composite.
  rewrite CollectionFacts.sample_clip, (CollectionFacts.sample_median _ _ _ _ H).
  reflexivity.
Qed.

Lemma severity_of_dnbr cfg svc roi p :
  sample (severity cfg svc roi) "SEVERITY" p
  = option_map Indices.severity_class (sample (dnbr cfg svc roi) "DNBR" p).
Proof.
  unfold severity, dnbr.
  rewrite IndicesFacts.severity_sample, IndicesFacts.first_band_dnbr_of.
  reflexivity.
Qed.

End PipelineFacts.

(** * The classification (lines 99 to 104) *)

Module Classification.
Import EE Script.
Open Scope string_scope.






(** C10.  Wherever the dNBR raster holds a value, boundary values and the
    gap included, the severity raster holds one of 0, 1, 2, 3, 4. *)
Theorem severity_always_a_class cfg svc roi p d :
  sample (dnbr cfg svc roi) "DNBR" p = Some d ->
  exists c, In c Stated.classes /\
            sample (severity cfg svc roi) "SEVERITY" p = Some c.
Proof.
  intros Hd. exists (Indices.severity_class d). split.
  - apply IndicesFacts.severity_class_range.
  - rewrite PipelineFacts.severity_of_dnbr, Hd. reflexivity.
Qed.

Lemma severity_always_a_class_witness :
  exists c, In c Stated.classes /\
    sample (severity Config.source (Demo.service true 29 11) Demo.roi) "SEVERITY"
           Demo.inside = Some c.
Proof.
  eapply (severity_always_a_class Config.source (Demo.service true 29 11)).
  vm_compute. reflexivity.
Defined.

End Classification.

(** * The indices (lines 71 to 95) *)

Module Composition.
Import EE Script.
Open Scope string_scope.



End Composition.

Module ScriptFacts.
Import Script.

Lemma trace_bind {A B} (m : M A) (k : A -> M B) :
  trace (bind m k)
  = (trace m ++ match status m with
                | inr a => trace (k a)
                | inl _ => []
                end)%list.
Proof.
  destruct m as [t [h|a]]; cbn.
  - rewrite app_nil_r. reflexivity.
  - destruct (k a). reflexivity.
Qed.

Lemma status_bind {A B} (m : M A) (k : A -> M B) :
  status (bind m k)
  = match status m with
    | inr a => status (k a)
    | inl h => inl h
    end.
Proof.
  destruct m as [t [h|a]]; cbn; [reflexivity|].
  destruct (k a). reflexivity.
Qed.

Lemma files_written_app t u :
  files_written (t ++ u) = (files_written t ++ files_written u)%list.
Proof. apply flat_map_app. Qed.

Lemma requests_app t u : requests (t ++ u) = (requests t ++ requests u)%list.
Proof. apply flat_map_app. Qed.

Lemma printed_app t u : printed (t ++ u) = (printed t ++ printed u)%list.
Proof. apply flat_map_app. Qed.

Lemma Rectangle_Some coords g :
  EE.Rectangle coords = Some g ->
  coords = [EE.xMin g; EE.yMin g; EE.xMax g; EE.yMax g].
Proof.
  destruct coords as [|a [|b [|c [|d [|e rest]]]]]; cbn; try discriminate.
  intros H. injection H as <-. reflexivity.
Qed.

End ScriptFacts.

Module TextFacts.
Import Text.
Open Scope string_scope.

Lemma append_nil_r s : s ++ "" = s.
Proof. induction s as [|c s IH]; cbn; [reflexivity | rewrite IH; reflexivity]. Qed.

Lemma append_assoc s t u : (s ++ t) ++ u = s ++ t ++ u.
Proof. induction s as [|c s IH]; cbn; [reflexivity | rewrite IH; reflexivity]. Qed.

Lemma substring_refl s : Substring s s.
Proof. exists "", "". cbn. rewrite append_nil_r. reflexivity. Qed.

Lemma substring_app_l s t u : Substring s t -> Substring s (u ++ t).
Proof.
  intros [a [b ->]]. exists (u ++ a), b. rewrite append_assoc. reflexivity.
Qed.

Lemma substring_app_r s t u : Substring s t -> Substring s (t ++ u).
Proof.
  intros [a [b ->]]. exists a, (b ++ u). rewrite !append_assoc. reflexivity.
Qed.

Lemma substring_unlines x l : In x l -> Substring x (unlines l).
Proof.
  induction l as [|y rest IH]; cbn [In unlines]; [tauto|].
  intros [-> | H].
  - apply substring_app_r, substring_refl.
  - apply substring_app_l, substring_app_l, IH, H.
Qed.

Lemma substring_trans s t u : Substring s t -> Substring t u -> Substring s u.
Proof.
  intros [a [b ->]] [c [d ->]]. exists (c ++ a), (b ++ d).
  rewrite !append_assoc. reflexivity.
Qed.

Lemma starts_with_app s b : starts_with s (s ++ b) = true.
Proof.
  induction s as [|c s IH]; cbn; [reflexivity|].
  rewrite Ascii.eqb_refl. exact IH.
Qed.

(** The decision procedure finds every occurrence. *)
Lemma contains_complete s t : Substring s t -> contains s t = true.
Proof.
  intros [a [b ->]]. induction a as [|c a IH].
  - cbn [append]. destruct (s ++ b) eqn:E; cbn [contains];
      rewrite <- E, starts_with_app; reflexivity.
  - cbn [append contains]. rewrite IH. apply orb_true_r.
Qed.

End TextFacts.

Module HtmlFacts.
Import Text Html TextFacts.
Open Scope string_scope.

Section Page.
Variables REGION_NAME PRE_FIRE_DATE POST_FIRE_DATE sqkm ha generated : string.

Local Notation page :=
  (dashboard_html REGION_NAME PRE_FIRE_DATE POST_FIRE_DATE sqkm ha generated).

Ltac find_line :=
  unfold dashboard_html;
  apply substring_app_l, substring_unlines;
  repeat first
    [ apply in_eq
    | apply in_cons
    | apply in_or_app; right; cbn [app] ].

Lemma page_has_title_line : Substring (title_line REGION_NAME) page.
Proof. find_line. Qed.

Lemma page_has_period_line :
  Substring (period_line PRE_FIRE_DATE POST_FIRE_DATE) page.
Proof. find_line. Qed.

Lemma page_has_iframe_line : Substring (iframe_line REGION_NAME) page.
Proof. find_line. Qed.

(** The title element names the region. *)
Lemma page_title :
  Substring ("<title>Wildfire Dashboard - " ++ REGION_NAME ++ "</title>") page.
Proof.
  refine (substring_trans _ _ _ _ page_has_title_line).
  exists "    ", "". rewrite append_nil_r. reflexivity.
Qed.

(** The inline frame loads the map of the region. *)
Lemma page_iframe :
  Substring ("<iframe id=" ++ dq ++ "mapFrame" ++ dq ++ " src=" ++ dq
               ++ "map_" ++ REGION_NAME ++ ".html" ++ dq ++ ">") page.
Proof.
  refine (substring_trans _ _ _ _ page_has_iframe_line).
  exists "                ", "</iframe>". unfold iframe_line.
  rewrite !append_assoc. reflexivity.
Qed.

(** The analysis period gives the two dates. *)
Lemma page_period :
  Substring ("Analysis Period: " ++ PRE_FIRE_DATE ++ " to " ++ POST_FIRE_DATE) page.
Proof.
  refine (substring_trans _ _ _ _ page_has_period_line).
  exists "                    <div>", "</div>". unfold period_line.
  rewrite !append_assoc. reflexivity.
Qed.

End Page.

End HtmlFacts.

(** * The run *)

Module Run.
Import EE Script Config.
Open Scope string_scope.

(** Evaluate the steps whose outcome is known. *)
Ltac exec :=
  cbv beta iota zeta delta
    [bind ret print exit raise try_except request of_option banner header
     status trace fst snd app files_written requests printed pages maps
     flat_map map hints nth_error].

Ltac unfold_script :=
  unfold main, after_connect, after_check, connect, ee_Initialize, check_counts,
    build_map, add_layer, center_lat, center_lon, bbox_at, save_map, write_file.

(** Follow the script through every test it makes, in order; [stop]
    settles the runs that end at a test. *)
Ltac explore cfg host svc stop :=
  unfold_script;
  destruct (initialize svc (EE_PROJECT cfg));
  (destruct (Rectangle (BBOX cfg)) as [roi|] eqn:HR;
   [rewrite (ScriptFacts.Rectangle_Some _ _ HR) | exec; stop]);
  exec;
  (destruct (responds svc GetArea) eqn:HA; exec; [|stop]);
  (destruct (responds svc GetPreCount) eqn:H1; exec; [|stop]);
  (destruct (responds svc GetPostCount) eqn:H2; exec; [|stop]);
  (match goal with
   | |- context [((?a =? 0)%Z || ?b)%bool] =>
       destruct ((a =? 0)%Z || b)%bool eqn:Hcount
   end; exec; [stop|]);
  (destruct (responds svc (GetMapId "PREFIRE_NBR")) eqn:L1; exec; [|stop]);
  (destruct (responds svc (GetMapId "POSTFIRE_NBR")) eqn:L2; exec; [|stop]);
  (destruct (responds svc (GetMapId "DNBR")) eqn:L3; exec; [|stop]);
  (destruct (responds svc (GetMapId "SEVERITY")) eqn:L4; exec; [|stop]);
  (destruct (writable host (map_path cfg)) eqn:W1; exec; [|stop]);
  (destruct (writable host (dashboard_filename cfg)) eqn:W2; exec; [|stop]).

(** C8.  A run that reaches its end has written exactly two files: the
    map, saved by [Map.to_html] under [./outputs/map_<region>.html], then
    the dashboard, written under
    [./outputs/wildfire_dashboard_<region>.html].  The leading [./] names
    the working directory: the paths have the components of
    [outputs/map_<region>.html] and
    [outputs/wildfire_dashboard_<region>.html]. *)
Theorem output_files cfg host svc :
  status (main cfg host svc) = inr tt ->
  files_written (trace (main cfg host svc))
    = [map_path cfg; dashboard_filename cfg] /\
  List.map fst (maps (trace (main cfg host svc))) = [map_path cfg] /\
  List.map fst (pages (trace (main cfg host svc))) = [dashboard_filename cfg] /\
  map_path cfg = "./" ++ "outputs/map_" ++ REGION_NAME cfg ++ ".html" /\
  dashboard_filename cfg
    = "./" ++ "outputs/wildfire_dashboard_" ++ REGION_NAME cfg ++ ".html" /\
  Path.components (map_path cfg)
    = Path.components ("outputs/map_" ++ REGION_NAME cfg ++ ".html") /\
  Path.components (dashboard_filename cfg)
    = Path.components ("outputs/wildfire_dashboard_" ++ REGION_NAME cfg ++ ".html").
Proof.
  intros Hdone.
  assert (Hfiles :
    files_written (trace (main cfg host svc))
      = [map_path cfg; dashboard_filename cfg] /\
    List.map fst (maps (trace (main cfg host svc))) = [map_path cfg] /\
    List.map fst (pages (trace (main cfg host svc))) = [dashboard_filename cfg]).
  { revert Hdone.
    explore cfg host svc ltac:(intros; discriminate);
      intros _; repeat split; reflexivity. }
  destruct Hfiles as (F1 & F2 & F3).
  repeat split; try assumption; reflexivity.
Qed.

Lemma In_pages p c t : In (FileWritten p c) t -> In (p, c) (pages t).
Proof.
  intros H. unfold pages. apply in_flat_map.
  exists (FileWritten p c). split; [exact H | left; reflexivity].
Qed.

Lemma In_maps p c t : In (MapSaved p c) t -> In (p, c) (maps t).
Proof.
  intros H. unfold maps. apply in_flat_map.
  exists (MapSaved p c). split; [exact H | left; reflexivity].
Qed.

(** Whatever a run saves as a map is the rendering of the map of lines
    123 to 150, under [map_path]; whatever it writes as a page is the
    dashboard of lines 166 to 380, under [dashboard_filename]. *)
Lemma main_writes cfg host svc :
  (forall pc, In pc (maps (trace (main cfg host svc))) ->
     exists roi m,
       Rectangle (BBOX cfg) = Some roi /\
       status (build_map cfg svc roi) = inr m /\
       pc = (map_path cfg, render host m)) /\
  (forall pc, In pc (pages (trace (main cfg host svc))) ->
     exists sqm,
       pc = (dashboard_filename cfg,
             dashboard_html cfg host (area_sqkm sqm) (area_ha sqm))).
Proof.
  explore cfg host svc
    ltac:(solve [split; intros pc Hin;
                 repeat (destruct Hin as [<- | Hin];
                         [first [ eexists; eexists; repeat split; reflexivity
                                | eexists; reflexivity ]|]);
                 destruct Hin]).
  all: split; intros pc Hin;
    repeat (destruct Hin as [<- | Hin];
            [first [ eexists; eexists; repeat split; reflexivity
                   | eexists; reflexivity ]|]);
    destruct Hin.
Qed.

(** The map is created around the midpoint of the box. *)
Lemma build_map_center cfg svc roi w s e n m :
  BBOX cfg = [w; s; e; n] ->
  status (build_map cfg svc roi) = inr m ->
  Geemap.center m = ((s + n) / 2, (w + e) / 2)%Q /\ Geemap.zoom m = 10%Z.
Proof.
  intros HB. unfold build_map, add_layer, center_lat, center_lon, bbox_at.
  rewrite HB. exec.
  destruct (responds svc (GetMapId "PREFIRE_NBR")); exec; [|discriminate].
  destruct (responds svc (GetMapId "POSTFIRE_NBR")); exec; [|discriminate].
  destruct (responds svc (GetMapId "DNBR")); exec; [|discriminate].
  destruct (responds svc (GetMapId "SEVERITY")); exec; [|discriminate].
  intros H. injection H as <-. split; reflexivity.
Qed.

(** C3.  In a run that obtains both counts, when the pre-fire count or
    the post-fire count is zero the script prints the four hints last and
    leaves through [exit()]: no file is saved or written, and the only
    requests made are the area and the two counts, so no layer, the
    classification among them, was ever asked for. *)
Theorem no_images_exits_early cfg host svc roi :
  Rectangle (BBOX cfg) = Some roi ->
  responds svc GetArea = true ->
  responds svc GetPreCount = true ->
  responds svc GetPostCount = true ->
  (size (prefire_images cfg svc roi) = 0 \/
   size (postfire_images cfg svc roi) = 0)%Z ->
  status (main cfg host svc) = inl Exited /\
  (exists before,
     trace (main cfg host svc) = (before ++ List.map Printed hints)%list) /\
  files_written (trace (main cfg host svc)) = [] /\
  requests (trace (main cfg host svc)) = [GetArea; GetPreCount; GetPostCount].
Proof.
  intros HR HA H1 H2 Hz.
  assert (Hc : ((size (prefire_images cfg svc roi) =? 0)%Z
                || (size (postfire_images cfg svc roi) =? 0)%Z)%bool = true).
  { apply orb_true_iff. rewrite !Z.eqb_eq. exact Hz. }
  unfold main, after_connect, connect, ee_Initialize, check_counts.
  destruct (initialize svc (EE_PROJECT cfg));
    repeat (exec; first [rewrite HR | rewrite HA | rewrite H1 | rewrite H2 | rewrite Hc]);
    (split; [reflexivity|]); (split; [|split; reflexivity]).
  - eexists (_ :: _ :: _ :: _ :: _ :: _ :: _ :: _ :: _ :: _ :: _ :: _ :: _ :: []).
    reflexivity.
  - eexists (_ :: _ :: _ :: _ :: _ :: _ :: _ :: _ :: _ :: _ :: _ :: _ :: _ :: _ :: []).
    reflexivity.
Qed.

Lemma no_images_exits_early_witness :
  status (main Config.source Demo.host Demo.empty_service) = inl Exited /\
  files_written (trace (main Config.source Demo.host Demo.empty_service)) = [].
Proof.
  destruct (no_images_exits_early Config.source Demo.host Demo.empty_service Demo.roi)
    as (Hs & _ & Hf & _).
  - reflexivity.
  - reflexivity.
  - reflexivity.
  - reflexivity.
  - left. reflexivity.
  - split; assumption.
Defined.



(** C6.  Whenever a run writes the dashboard, the page has the region
    name in its title element and in the source of its inline frame, and
    gives the analysis period with the two date constants. *)
Theorem dashboard_names_region_and_dates cfg host svc path content :
  In (FileWritten path content) (trace (main cfg host svc)) ->
  Text.contains
    ("<title>Wildfire Dashboard - " ++ REGION_NAME cfg ++ "</title>") content = true /\
  Text.contains
    ("<iframe id=" ++ Text.dq ++ "mapFrame" ++ Text.dq ++ " src=" ++ Text.dq
       ++ "map_" ++ REGION_NAME cfg ++ ".html" ++ Text.dq ++ ">") content = true /\
  Text.contains
    ("Analysis Period: " ++ PRE_FIRE_DATE cfg ++ " to " ++ POST_FIRE_DATE cfg)
    content = true.
Proof.
  intros Hin. apply In_pages in Hin.
  destruct (proj2 (main_writes cfg host svc) _ Hin) as [sqm E].
  injection E as -> ->. unfold dashboard_html.
  repeat split; apply TextFacts.contains_complete.
  - apply HtmlFacts.page_title.
  - apply HtmlFacts.page_iframe.
  - apply HtmlFacts.page_period.
Qed.


Lemma output_files_witness :
  files_written (trace (main Config.source Demo.host (Demo.service true 29 11)))
  = ["./outputs/map_Camarillo.html"; "./outputs/wildfire_dashboard_Camarillo.html"].
Proof.
  refine (proj1 (output_files Config.source Demo.host (Demo.service true 29 11) _)).
  vm_compute. reflexivity.
Defined.

Lemma dashboard_names_region_and_dates_witness :
  exists content,
    In (FileWritten "./outputs/wildfire_dashboard_Camarillo.html" content)
       (trace (main Config.source Demo.host (Demo.service true 29 11))) /\
    Text.contains "<title>Wildfire Dashboard - Camarillo</title>" content = true /\
    Text.contains "Analysis Period: 2024-11-06 to 2024-12-31" content = true.
Proof.
  assert (H : In (FileWritten (dashboard_filename Config.source)
                    (dashboard_html Config.source Demo.host
                       (area_sqkm 407900002) (area_ha 407900002)))
                 (trace (main Config.source Demo.host (Demo.service true 29 11)))).
  { vm_compute. repeat first [left; reflexivity | right]. }
  eexists. split; [exact H|].
  destruct (dashboard_names_region_and_dates _ _ _ _ _ H) as (T & _ & P).
  split; [exact T | exact P].
Defined.


End Run.

(** * The area figures (lines 35 to 39) *)

Module Area.
Import Script.



End Area.

(** * Further properties of the rasters *)

Module ClassificationMore.
Import EE Script.
Open Scope string_scope.

(** Each output value of the chain, read backwards. *)
Lemma severity_class_exact d :
  (Indices.severity_class d = 4 <-> 0.66 < d) /\
  (Indices.severity_class d = 3 <-> 0.439 < d /\ d < 0.659) /\
  (Indices.severity_class d = 2 <-> 0.27 < d /\ d < 0.439) /\
  (Indices.severity_class d = 1 <-> 0.05 < d /\ d < 0.27) /\
  (Indices.severity_class d = 0 <->
     d < 0.05 \/ Stated.on_boundary d).
Proof.
  unfold Indices.severity_class, Indices.step, Stated.on_boundary.
  IndicesFacts.split_tests; cbn;
    repeat match goal with
    | |- _ /\ _ => split
    | |- _ <-> _ => split; intros
    end;
    try discriminate; try reflexivity; try lra;
    try solve [exfalso; lra];
    first [ left; lra
          | right; left; lra
          | right; right; left; lra
          | right; right; right; left; lra
          | right; right; right; right; lra
          | exfalso;
            repeat match goal with
            | H : _ \/ _ |- _ => destruct H
            end; lra ].
Qed.



(** Off the left-out values every dNBR is in one of the stated bins. *)
Lemma stated_bins_cover d :
  ~ Stated.on_boundary d -> exists c, Stated.class_of d c.
Proof.
  unfold Stated.on_boundary. intros Hb.
  destruct (Qlt_le_dec d 0.05); [exists 0; constructor; assumption|].
  destruct (Qlt_le_dec d 0.27);
    [exists 1; constructor; [|assumption];
     destruct (Qlt_le_dec 0.05 d); [assumption|exfalso; apply Hb; left; lra]|].
  destruct (Qlt_le_dec d 0.439);
    [exists 2; constructor; [|assumption];
     destruct (Qlt_le_dec 0.27 d);
       [assumption|exfalso; apply Hb; right; left; lra]|].
  destruct (Qlt_le_dec d 0.659);
    [exists 3; constructor; [|assumption];
     destruct (Qlt_le_dec 0.439 d);
       [assumption|exfalso; apply Hb; right; right; left; lra]|].
  destruct (Qlt_le_dec 0.66 d); [exists 4; constructor; assumption|].
  exfalso. apply Hb. right; right; right. split; assumption.
Qed.

Lemma stated_bins_ordered d c d' c' :
  Stated.class_of d c -> Stated.class_of d' c' -> d <= d' -> c <= c'.
Proof.
  intros H H'. destruct H, H'; intros Hle;
    first [ unfold Qle; cbn; lia | exfalso; lra ].
Qed.





(** X4.  Outside the rectangle everything is masked: both composites in
    every band, both NBR rasters, the dNBR and the severity. *)
Theorem masked_outside_region cfg svc roi p :
  contains roi p = false ->
  (forall name, sample (pre_fire_image cfg svc roi) name p = None) /\
  (forall name, sample (post_fire_image cfg svc roi) name p = None) /\
  first_band (prefire_nbr cfg svc roi) p = None /\
  first_band (postfire_nbr cfg svc roi) p = None /\
  sample (dnbr cfg svc roi) "DNBR" p = None /\
  sample (severity cfg svc roi) "SEVERITY" p = None.
Proof.
  intros Hout.
  assert (Hpre : forall name, sample (pre_fire_image cfg svc roi) name p = None).
  { intros name. unfold pre_fire_image, composite.
    rewrite CollectionFacts.sample_clip, Hout. reflexivity. }
  assert (Hpost : forall name, sample (post_fire_image cfg svc roi) name p = None).
  { intros name. unfold post_fire_image, composite.
    rewrite CollectionFacts.sample_clip, Hout. reflexivity. }
  assert (Hn : first_band (prefire_nbr cfg svc roi) p = None).
  { unfold prefire_nbr. rewrite IndicesFacts.first_band_nbr, !Hpre. reflexivity. }
  assert (Hm : first_band (postfire_nbr cfg svc roi) p = None).
  { unfold postfire_nbr. rewrite IndicesFacts.first_band_nbr, !Hpost. reflexivity. }
  assert (Hd : sample (dnbr cfg svc roi) "DNBR" p = None).
  { unfold dnbr. rewrite IndicesFacts.sample_dnbr_of, Hn. reflexivity. }
  repeat split; try assumption.
  rewrite PipelineFacts.severity_of_dnbr, Hd. reflexivity.
Qed.

Lemma masked_outside_region_witness :
  sample (severity Config.source (Demo.service true 1 1) Demo.roi) "SEVERITY" (0, 0)
  = None.
Proof.
  refine (proj2 (proj2 (proj2 (proj2 (proj2
            (masked_outside_region Config.source (Demo.service true 1 1)
               Demo.roi (0, 0) _)))))).
  reflexivity.
Defined.

(** NBR of two non-negative reflectances that are not both zero. *)
Lemma nbr_bounded a b :
  0 <= a -> 0 <= b -> 0 < a + b -> -1 <= (a - b) / (a + b) /\ (a - b) / (a + b) <= 1.
Proof.
  intros Ha Hb Hs. split.
  - apply Qle_shift_div_l; [assumption | lra].
  - apply Qle_shift_div_r; [assumption | lra].
Qed.

(** X5.  Where both composites hold non-negative B8 and B12 values that
    are not both zero, each NBR lies between -1 and 1, the range the NBR
    layers are drawn with, and the dNBR between -2 and 2. *)
Theorem indices_bounded cfg svc roi p a b a' b' :
  sample (pre_fire_image cfg svc roi) "B8" p = Some a ->
  sample (pre_fire_image cfg svc roi) "B12" p = Some b ->
  sample (post_fire_image cfg svc roi) "B8" p = Some a' ->
  sample (post_fire_image cfg svc roi) "B12" p = Some b' ->
  0 <= a -> 0 <= b -> 0 < a + b ->
  0 <= a' -> 0 <= b' -> 0 < a' + b' ->
  exists x y,
    first_band (prefire_nbr cfg svc roi) p = Some x /\
    first_band (postfire_nbr cfg svc roi) p = Some y /\
    sample (dnbr cfg svc roi) "DNBR" p = Some (x - y) /\
    Geemap.vis_min nbr_vis <= x /\ x <= Geemap.vis_max nbr_vis /\
    Geemap.vis_min nbr_vis <= y /\ y <= Geemap.vis_max nbr_vis /\
    -2 <= x - y /\ x - y <= 2.
Proof.
  intros Ha Hb Ha' Hb' P1 P2 P3 Q1 Q2 Q3.
  exists ((a - b) / (a + b)), ((a' - b') / (a' + b')).
  assert (Hx : first_band (prefire_nbr cfg svc roi) p = Some ((a - b) / (a + b))).
  { unfold prefire_nbr. rewrite IndicesFacts.first_band_nbr, Ha, Hb. reflexivity. }
  assert (Hy : first_band (postfire_nbr cfg svc roi) p = Some ((a' - b') / (a' + b'))).
  { unfold postfire_nbr. rewrite IndicesFacts.first_band_nbr, Ha', Hb'. reflexivity. }
  destruct (nbr_bounded a b P1 P2 P3) as [L U].
  destruct (nbr_bounded a' b' Q1 Q2 Q3) as [L' U'].
  split; [exact Hx|]. split; [exact Hy|]. split.
  { unfold dnbr. rewrite IndicesFacts.sample_dnbr_of, Hx, Hy. reflexivity. }
  cbn [Geemap.vis_min Geemap.vis_max nbr_vis].
  repeat split; lra.
Qed.

Lemma indices_bounded_witness :
  exists x y,
    first_band (prefire_nbr Config.source (Demo.service true 29 11) Demo.roi)
               Demo.inside = Some x /\
    first_band (postfire_nbr Config.source (Demo.service true 29 11) Demo.roi)
               Demo.inside = Some y /\
    -2 <= x - y /\ x - y <= 2.
Proof.
  destruct (indices_bounded Config.source (Demo.service true 29 11) Demo.roi
              Demo.inside 3 1 29 11) as (x & y & Hx & Hy & _ & _ & _ & _ & _ & L & U);
    try (vm_compute; reflexivity); try lra.
  exists x, y. repeat split; assumption.
Defined.

(** X6.  When the pre-fire window closes no later than the post-fire
    window opens, no scene feeds both composites. *)
Theorem windows_do_not_share_scenes cfg svc roi s :
  (date_millis svc (Config.PRE_FIRE_DATE cfg)
   <= date_millis svc (Config.POST_FIRE_START cfg))%Z ->
  In s (prefire_images cfg svc roi) ->
  ~ In s (postfire_images cfg svc roi).
Proof.
  intros Hgap Hpre Hpost.
  apply PipelineFacts.images_spec in Hpre. apply PipelineFacts.images_spec in Hpost.
  destruct Hpre as (_ & (_ & Hbefore) & _). destruct Hpost as (_ & (Hafter & _) & _).
  lia.
Qed.

Lemma windows_do_not_share_scenes_witness :
  ~ In (Demo.scene 1729000000000 5 3 1)
       (postfire_images Config.source (Demo.service true 29 11) Demo.roi).
Proof.
  apply (windows_do_not_share_scenes Config.source (Demo.service true 29 11) Demo.roi).
  - vm_compute. discriminate.
  - left. reflexivity.
Defined.

End ClassificationMore.

(** * Further properties of the run *)

Module RunMore.
Import EE Script Config Run.
Open Scope string_scope.


(** X8.  Files come in one order only.  A run writes nothing, or the map
    alone, or the map and then the dashboard; the dashboard is never
    written without the map before it, and a run that wrote the dashboard
    is a run that reached its end. *)
Theorem files_in_order cfg host svc :
  (files_written (trace (main cfg host svc)) = [] /\
   status (main cfg host svc) <> inr tt) \/
  (files_written (trace (main cfg host svc)) = [map_path cfg] /\
   pages (trace (main cfg host svc)) = [] /\
   status (main cfg host svc) <> inr tt) \/
  (files_written (trace (main cfg host svc))
     = [map_path cfg; dashboard_filename cfg] /\
   status (main cfg host svc) = inr tt).
Proof.
  explore cfg host svc
    ltac:(solve [ left; split; [reflexivity | discriminate]
                | right; left; split; [reflexivity | split; [reflexivity | discriminate]] ]).
  all: right; right; split; reflexivity.
Qed.



(** The map of lines 123 to 150, when all four tile requests return. *)
Lemma build_map_content cfg svc roi m :
  status (build_map cfg svc roi) = inr m ->
  Geemap.basemaps m = ["HYBRID"] /\
  Geemap.layers m = Observed.source_layers cfg svc roi /\
  Geemap.legends m = [legend] /\
  Geemap.zoom m = 10%Z.
Proof.
  unfold build_map, add_layer, center_lat, center_lon, bbox_at.
  destruct (nth_error (BBOX cfg) 1), (nth_error (BBOX cfg) 3),
    (nth_error (BBOX cfg) 0), (nth_error (BBOX cfg) 2);
    exec; try (intros H; discriminate H).
  destruct (responds svc (GetMapId "PREFIRE_NBR")); exec; [|discriminate].
  destruct (responds svc (GetMapId "POSTFIRE_NBR")); exec; [|discriminate].
  destruct (responds svc (GetMapId "DNBR")); exec; [|discriminate].
  destruct (responds svc (GetMapId "SEVERITY")); exec; [|discriminate].
  intros H. injection H as <-. repeat split; reflexivity.
Qed.

(** X11.  The map a run saves shows, over the HYBRID basemap, the
    pre-fire NBR, the post-fire NBR, the dNBR and on top the severity,
    each under its own name and colours, with one legend whose five
    colours are, in class order, the palette of the severity layer. *)
Theorem saved_map_content cfg host svc path content :
  In (MapSaved path content) (trace (main cfg host svc)) ->
  exists roi m,
    Rectangle (BBOX cfg) = Some roi /\
    content = render host m /\
    Geemap.basemaps m = ["HYBRID"] /\
    Geemap.layers m = Observed.source_layers cfg svc roi /\
    Geemap.legends m = [legend] /\
    List.map snd (Geemap.legend_dict legend) = Geemap.palette severity_vis /\
    Z.of_nat (length (Geemap.legend_dict legend))
      = (Qnum (Geemap.vis_max severity_vis) + 1)%Z.
Proof.
  intros Hin. apply In_maps in Hin.
  destruct (proj1 (main_writes cfg host svc) _ Hin) as (roi & m & HR & Hm & E).
  injection E as -> ->.
  destruct (build_map_content cfg svc roi m Hm) as (B & L & G & _).
  exists roi, m. repeat split; try assumption; reflexivity.
Qed.

Lemma saved_map_content_witness :
  exists roi m,
    Rectangle (BBOX Config.source) = Some roi /\
    "<html>map</html>" = render Demo.host m /\
    Geemap.basemaps m = ["HYBRID"] /\
    List.map Geemap.layer_name (Geemap.layers m)
      = ["PREFIRE_NBR"; "POSTFIRE_NBR"; "DNBR"; "SEVERITY"].
Proof.
  destruct (saved_map_content Config.source Demo.host (Demo.service true 29 11)
              "./outputs/map_Camarillo.html" "<html>map</html>")
    as (roi & m & HR & Hc & Hb & Hl & _).
  - vm_compute. repeat first [left; reflexivity | right].
  - exists roi, m. repeat split; try assumption. rewrite Hl. reflexivity.
Defined.

(** X14.  A run leaves through [exit()] exactly when it obtained the
    area and both counts and one of the counts is zero. *)
Theorem run_exits_iff cfg host svc :
  status (main cfg host svc) = inl Exited <->
  exists roi,
    Rectangle (BBOX cfg) = Some roi /\
    responds svc GetArea = true /\
    responds svc GetPreCount = true /\
    responds svc GetPostCount = true /\
    (size (prefire_images cfg svc roi) = 0 \/
     size (postfire_images cfg svc roi) = 0)%Z.
Proof.
  split.
  - explore cfg host svc
      ltac:(first [ solve [intros; discriminate]
                  | intros _; exists roi;
                    apply orb_true_iff in Hcount; rewrite !Z.eqb_eq in Hcount;
                    repeat split; assumption ]).
    all: intros; discriminate.
  - intros (roi & HR & HA & H1 & H2 & Hz).
    assert (Hc : ((size (prefire_images cfg svc roi) =? 0)%Z
                  || (size (postfire_images cfg svc roi) =? 0)%Z)%bool = true).
    { apply orb_true_iff. rewrite !Z.eqb_eq. exact Hz. }
    unfold main, after_connect, connect, ee_Initialize, check_counts.
    destruct (initialize svc (EE_PROJECT cfg));
      repeat (exec;
              first [rewrite HR | rewrite HA | rewrite H1 | rewrite H2 | rewrite Hc]);
      reflexivity.
Qed.

End RunMore.

(** * Further properties of the dashboard *)

Module DashboardMore.
Import EE Script Config Run Text Html TextFacts.
Open Scope string_scope.

Ltac find_line :=
  unfold dashboard_html, Html.dashboard_html;
  apply substring_app_l, substring_unlines;
  repeat first
    [ apply in_eq
    | apply in_cons
    | apply in_or_app; right; cbn [app] ].

Lemma page_has_script_src_line R P Q a h g :
  Substring (script_src_line R) (Html.dashboard_html R P Q a h g).
Proof. find_line. Qed.

Lemma page_has_area_line R P Q a h g :
  Substring (area_line a h) (Html.dashboard_html R P Q a h g).
Proof. find_line. Qed.

Lemma page_has_generated_line R P Q a h g :
  Substring (generated_line g) (Html.dashboard_html R P Q a h g).
Proof. find_line. Qed.

(** The page a run writes, and the area lines it printed on the way. *)
Lemma main_page cfg host svc pc :
  In pc (pages (trace (main cfg host svc))) ->
  exists roi,
    Rectangle (BBOX cfg) = Some roi /\
    pc = (dashboard_filename cfg,
          Script.dashboard_html cfg host (area_sqkm (area svc roi))
                                (area_ha (area svc roi))) /\
    In (Printed ("Area: " ++ format_2f host (area_sqkm (area svc roi)) ++ " km²"))
       (trace (main cfg host svc)) /\
    In (Printed ("Area: " ++ format_2f host (area_ha (area svc roi)) ++ " ha"))
       (trace (main cfg host svc)).
Proof.
  explore cfg host svc ltac:(solve [intros Hin; destruct Hin]).
  all: intros [<- | []]; exists roi;
    split; [reflexivity|]; split; [reflexivity|]; split; cbn [In].
  - do 5 right. left. reflexivity.
  - do 6 right. left. reflexivity.
  - do 6 right. left. reflexivity.
  - do 7 right. left. reflexivity.
Qed.

(** A run that reaches its end wrote the dashboard. *)
Lemma completed_run_page cfg host svc :
  status (main cfg host svc) = inr tt ->
  exists roi,
    Rectangle (BBOX cfg) = Some roi /\
    In (FileWritten (dashboard_filename cfg)
          (Script.dashboard_html cfg host (area_sqkm (area svc roi))
                                 (area_ha (area svc roi))))
       (trace (main cfg host svc)).
Proof.
  explore cfg host svc ltac:(solve [intros H; discriminate H]).
  all: intros _; exists roi; split; [reflexivity|]; cbn [In].
  - do 30 right. left. reflexivity.
  - do 31 right. left. reflexivity.
Qed.

(** X12.  The page a run writes stands beside the map it saved: both
    paths are under [./outputs/], and the file name of the map is what the
    inline frame of the page loads, in the tag and again in the script
    that sets the frame. *)
Theorem dashboard_frames_saved_map cfg host svc path content :
  In (FileWritten path content) (trace (main cfg host svc)) ->
  exists src,
    map_path cfg = "./outputs/" ++ src /\
    path = "./outputs/" ++ "wildfire_dashboard_" ++ REGION_NAME cfg ++ ".html" /\
    contains ("<iframe id=" ++ dq ++ "mapFrame" ++ dq ++ " src=" ++ dq
                ++ src ++ dq ++ ">") content = true /\
    contains ("document.getElementById('mapFrame').src = '" ++ src ++ "';")
             content = true.
Proof.
  intros Hin. apply In_pages in Hin.
  destruct (main_page cfg host svc _ Hin) as (roi & _ & E & _).
  injection E as -> ->.
  exists ("map_" ++ REGION_NAME cfg ++ ".html").
  split; [reflexivity|]. split; [reflexivity|].
  split; apply contains_complete.
  - rewrite !append_assoc. exact (HtmlFacts.page_iframe _ _ _ _ _ _).
  - refine (substring_trans _ _ _ _ (page_has_script_src_line _ _ _ _ _ _)).
    exists "        ", "". rewrite append_nil_r. unfold script_src_line.
    rewrite !append_assoc. reflexivity.
Qed.

(** X13.  The page reports the area with the very figures the run
    printed: the service's area of the rectangle over 1,000,000 and over
    10,000, each in the two-decimal format, and it carries the formatted
    time of writing. *)
Theorem dashboard_reports_printed_area cfg host svc path content :
  In (FileWritten path content) (trace (main cfg host svc)) ->
  exists roi sqkm ha,
    Rectangle (BBOX cfg) = Some roi /\
    sqkm = format_2f host (area svc roi / 1000000) /\
    ha = format_2f host (area svc roi / 10000) /\
    In (Printed ("Area: " ++ sqkm ++ " km²")) (trace (main cfg host svc)) /\
    In (Printed ("Area: " ++ ha ++ " ha")) (trace (main cfg host svc)) /\
    contains ("<strong>Total Study Area:</strong> " ++ sqkm ++ " km² ("
                ++ ha ++ " hectares)") content = true /\
    contains ("<strong>Generated:</strong> " ++ strftime_now host) content = true.
Proof.
  intros Hin. apply In_pages in Hin.
  destruct (main_page cfg host svc _ Hin) as (roi & HR & E & P1 & P2).
  injection E as -> ->.
  exists roi, (format_2f host (area svc roi / 1000000)),
    (format_2f host (area svc roi / 10000)).
  split; [exact HR|]. split; [reflexivity|]. split; [reflexivity|].
  split; [exact P1|]. split; [exact P2|].
  split; apply contains_complete.
  - refine (substring_trans _ _ _ _ (page_has_area_line _ _ _ _ _ _)).
    exists "                    <p>", "</p>". unfold area_line.
    rewrite !append_assoc. reflexivity.
  - refine (substring_trans _ _ _ _ (page_has_generated_line _ _ _ _ _ _)).
    exists "                    <p>", "</p>". unfold generated_line.
    rewrite !append_assoc. reflexivity.
Qed.

Lemma dashboard_frames_saved_map_witness :
  exists src content,
    In (FileWritten (dashboard_filename Config.source) content)
       (trace (main Config.source Demo.host (Demo.service true 29 11))) /\
    map_path Config.source = "./outputs/" ++ src /\
    contains ("document.getElementById('mapFrame').src = '" ++ src ++ "';")
             content = true.
Proof.
  destruct (completed_run_page Config.source Demo.host (Demo.service true 29 11))
    as (roi & _ & H); [vm_compute; reflexivity|].
  destruct (dashboard_frames_saved_map _ _ _ _ _ H) as (src & Hm & _ & _ & Hs).
  exists src. eexists. split; [exact H|]. split; assumption.
Defined.

Lemma dashboard_reports_printed_area_witness :
  exists sqkm ha content,
    In (FileWritten (dashboard_filename Config.source) content)
       (trace (main Config.source Demo.host (Demo.service true 29 11))) /\
    In (Printed ("Area: " ++ sqkm ++ " km²"))
       (trace (main Config.source Demo.host (Demo.service true 29 11))) /\
    contains ("<strong>Total Study Area:</strong> " ++ sqkm ++ " km² ("
                ++ ha ++ " hectares)") content = true.
Proof.
  destruct (completed_run_page Config.source Demo.host (Demo.service true 29 11))
    as (roi & _ & H); [vm_compute; reflexivity|].
  destruct (dashboard_reports_printed_area _ _ _ _ _ H)
    as (roi' & sqkm & ha & _ & _ & _ & P & _ & C & _).
  exists sqkm, ha. eexists. split; [exact H|]. split; assumption.
Defined.

End DashboardMore.
